(** * ch2_OOP.py: credit cards and numeric progressions

  A shallow embedding of the two class families of [ch2_OOP.py] and the
  properties of their methods.

  Conventions of the embedding.
  - A Python [int] is a [Z]: Python integers are unbounded, so no
    wrap-around is involved.  Balances, limits, prices and the terms of
    the progressions are integers, as in the driver at the end of the
    file.
  - An object is a record of its instance attributes; a subclass record
    holds the record of its superclass in a field, and an inherited method
    is the superclass method applied to that field.
  - A method that mutates [self] is a function from the object before the
    call to the returned value paired with the object after the call.
  - A method that can raise is in the monad [M], which keeps the object
    as it is at the moment the exception leaves the method.
  - [PredatoryCreditCard.process_month] computes with binary floating
    point ([pow(1 + apr, 1/12)]) and is outside the integer embedding. *)

From Stdlib Require Import ZArith List String Bool Lia QArith.
From Stdlib Require Import DecimalString Permutation Recdef FunInd.
Import ListNotations.

Local Open Scope Z_scope.
Local Open Scope string_scope.

(** ** The CreditCard class *)

Module CreditCard.

Record t : Type := mk {
  _customer : string;
  _bank : string;
  _account : string;
  _limit : Z;
  _balance : Z
}.

(** [__init__]: the initial balance is zero. *)
Definition __init__ (customer bank acnt : string) (limit : Z) : t :=
  {| _customer := customer;
     _bank := bank;
     _account := acnt;
     _limit := limit;
     _balance := 0 |}.

Definition get_customer (self : t) : string := _customer self.
Definition get_bank (self : t) : string := _bank self.
Definition get_account (self : t) : string := _account self.
Definition get_limit (self : t) : Z := _limit self.
Definition get_balance (self : t) : Z := _balance self.

(** Assignment to [self._balance]; the other attributes are kept. *)
Definition set_balance (b : Z) (self : t) : t :=
  {| _customer := _customer self;
     _bank := _bank self;
     _account := _account self;
     _limit := _limit self;
     _balance := b |}.

(** [charge]: denied when [price + self._balance > self._limit]. *)
Definition charge (price : Z) (self : t) : bool * t :=
  if price + _balance self >? _limit self
  then (false, self)
  else (true, set_balance (_balance self + price) self).

(** [make_payment]: [self._balance -= amount]. *)
Definition make_payment (amount : Z) (self : t) : t :=
  set_balance (_balance self - amount) self.

(** A sequence of calls [self.charge(p)] for [p] in [prices], in order;
    the results of the calls are collected. *)
Fixpoint charges (prices : list Z) (self : t) : list bool * t :=
  match prices with
  | [] => ([], self)
  | p :: ps =>
      let (r, self1) := charge p self in
      let (rs, self2) := charges ps self1 in
      (r :: rs, self2)
  end.

End CreditCard.

(** ** The PredatoryCreditCard subclass *)

Module PredatoryCreditCard.

(** The rate is stored by [__init__] and read by [process_month] only; a
    decimal literal is kept as the rational it denotes. *)
Record t : Type := mk {
  super : CreditCard.t;
  _apr : Q
}.

(** [__init__]: the super constructor, then the rate. *)
Definition __init__ (customer bank acnt : string) (limit : Z) (apr : Q) : t :=
  {| super := CreditCard.__init__ customer bank acnt limit;
     _apr := apr |}.

Definition get_limit (self : t) : Z := CreditCard.get_limit (super self).
Definition get_balance (self : t) : Z := CreditCard.get_balance (super self).

(** Apply a method of the superclass that updates the inherited part. *)
Definition with_super (c : CreditCard.t) (self : t) : t :=
  {| super := c; _apr := _apr self |}.

(** [charge]: the inherited method, then the 5 dollar fee when it was
    denied. *)
Definition charge (price : Z) (self : t) : bool * t :=
  let (success, c) := CreditCard.charge price (super self) in
  if negb success
  then (success,
        with_super (CreditCard.set_balance (CreditCard._balance c + 5) c) self)
  else (success, with_super c self).

(** [make_payment] is inherited. *)
Definition make_payment (amount : Z) (self : t) : t :=
  with_super (CreditCard.make_payment amount (super self)) self.

Fixpoint charges (prices : list Z) (self : t) : list bool * t :=
  match prices with
  | [] => ([], self)
  | p :: ps =>
      let (r, self1) := charge p self in
      let (rs, self2) := charges ps self1 in
      (r :: rs, self2)
  end.

(** The calls a client can make on a card that change its balance in the
    integer embedding. *)
Inductive call : Type :=
| Charge (price : Z)
| MakePayment (amount : Z).

Definition perform (c : call) (self : t) : t :=
  match c with
  | Charge price => snd (charge price self)
  | MakePayment amount => make_payment amount self
  end.

End PredatoryCreditCard.

(** ** Methods that can raise *)

Inductive exn : Type :=
| StopIteration
| TypeError
| RuntimeError.

(** A method of an object of type [St] with a result of type [A]: either
    the exception that leaves the method or the returned value, and the
    object as the method leaves it. *)
Definition M (St A : Type) : Type := St -> (exn + A) * St.

Definition ret {St A : Type} (a : A) : M St A :=
  fun self => (inr a, self).

Definition raise {St A : Type} (e : exn) : M St A :=
  fun self => (inl e, self).

Definition bind {St A B : Type} (m : M St A) (k : A -> M St B) : M St B :=
  fun self =>
    match m self with
    | (inl e, self1) => (inl e, self1)
    | (inr a, self1) => k a self1
    end.

Notation "x <- m ;; k" := (bind m (fun x => k))
  (at level 61, m at next level, right associativity).

(** Read an attribute of [self]. *)
Definition gets {St A : Type} (f : St -> A) : M St A :=
  fun self => (inr (f self), self).

(** Assign to attributes of [self]. *)
Definition modify {St : Type} (f : St -> St) : M St unit :=
  fun self => (inr tt, f self).

(** ** The Progression class *)

Module Progression.

(** [_current] is a number, or [None] for the end of a finite
    progression. *)
Record t : Type := mk {
  _current : option Z
}.

Definition default_start : option Z := Some 0.

Definition __init__ (start : option Z) : t :=
  {| _current := start |}.

(** [self._current += 1]; adding to [None] raises [TypeError]. *)
Definition _advance : M t unit :=
  c <- gets _current ;;
  match c with
  | None => raise TypeError
  | Some v => modify (fun _ => {| _current := Some (v + 1) |})
  end.

End Progression.

(** The classes of the hierarchy: each has the inherited attribute
    [_current] and its own [_advance], which [__next__] calls on [self]. *)
Class ProgressionClass (St : Type) : Type := {
  upcast : St -> Progression.t;
  _advance : M St unit
}.

Definition current {St : Type} `{ProgressionClass St} (self : St) : option Z :=
  Progression._current (upcast self).

(** [__next__], inherited by every subclass. *)
Definition __next__ {St : Type} `{ProgressionClass St} : M St Z :=
  c <- gets current ;;
  match c with
  | None => raise StopIteration
  | Some answer =>
      _ <- _advance ;;
      ret answer
  end.

(** [__iter__] returns [self]. *)
Definition __iter__ {St : Type} `{ProgressionClass St} : M St St :=
  gets (fun self => self).

(** The values of [n] successive calls [next(self)]. *)
Fixpoint next_n {St : Type} `{ProgressionClass St} (n : nat) : M St (list Z) :=
  match n with
  | O => ret []
  | S k =>
      x <- __next__ ;;
      xs <- next_n k ;;
      ret (x :: xs)
  end.

(** [str] of an integer. *)
Definition str (z : Z) : string := NilZero.string_of_int (Z.to_int z).

(** [' '.join] of a list of strings. *)
Fixpoint join (sep : string) (l : list string) : string :=
  match l with
  | [] => ""
  | [x] => x
  | x :: rest => x ++ sep ++ join sep rest
  end.

(** [print_progression]: the printed line.  The generator expression draws
    [next(self)] once for each [j] in [range(n)]; a [StopIteration] raised
    inside a generator leaves it as a [RuntimeError]. *)
Definition print_progression {St : Type} `{ProgressionClass St} (n : Z)
  : M St string :=
  fun self =>
    match next_n (Z.to_nat n) self with
    | (inl StopIteration, self1) => (inl RuntimeError, self1)
    | (inl e, self1) => (inl e, self1)
    | (inr l, self1) => (inr (join " " (map str l)), self1)
    end.

#[export] Instance Progression_class : ProgressionClass Progression.t := {|
  upcast := fun self => self;
  _advance := Progression._advance
|}.

(** ** The subclasses of Progression *)

Module ArithmeticProgression.

Record t : Type := mk {
  super : Progression.t;
  _increment : Z
}.

Definition default_increment : Z := 1.
Definition default_start : option Z := Some 0.

Definition __init__ (increment : Z) (start : option Z) : t :=
  {| super := Progression.__init__ start;
     _increment := increment |}.

(** [self._current += self._increment]. *)
Definition _advance : M t unit :=
  c <- gets (fun self => Progression._current (super self)) ;;
  match c with
  | None => raise TypeError
  | Some v =>
      modify (fun self =>
        {| super := {| Progression._current := Some (v + _increment self) |};
           _increment := _increment self |})
  end.

End ArithmeticProgression.

#[export] Instance ArithmeticProgression_class
  : ProgressionClass ArithmeticProgression.t := {|
  upcast := ArithmeticProgression.super;
  _advance := ArithmeticProgression._advance
|}.

Module GeometricProgression.

Record t : Type := mk {
  super : Progression.t;
  _base : Z
}.

Definition default_base : Z := 2.
Definition default_start : option Z := Some 1.

Definition __init__ (base : Z) (start : option Z) : t :=
  {| super := Progression.__init__ start;
     _base := base |}.

(** [self._current *= self._base]. *)
Definition _advance : M t unit :=
  c <- gets (fun self => Progression._current (super self)) ;;
  match c with
  | None => raise TypeError
  | Some v =>
      modify (fun self =>
        {| super := {| Progression._current := Some (v * _base self) |};
           _base := _base self |})
  end.

End GeometricProgression.

#[export] Instance GeometricProgression_class
  : ProgressionClass GeometricProgression.t := {|
  upcast := GeometricProgression.super;
  _advance := GeometricProgression._advance
|}.

Module FibonacciProgression.

Record t : Type := mk {
  super : Progression.t;
  _prev : Z
}.

Definition default_first : Z := 0.
Definition default_second : Z := 1.

(** [_prev] is the fictitious value preceding the first. *)
Definition __init__ (first second : Z) : t :=
  {| super := Progression.__init__ (Some first);
     _prev := second - first |}.

(** [self._prev, self._current = self._current, self._prev + self._current]:
    the right-hand side is evaluated first, then both attributes are
    assigned. *)
Definition _advance : M t unit :=
  c <- gets (fun self => Progression._current (super self)) ;;
  match c with
  | None => raise TypeError
  | Some v =>
      modify (fun self =>
        {| super := {| Progression._current := Some (_prev self + v) |};
           _prev := v |})
  end.

End FibonacciProgression.

#[export] Instance FibonacciProgression_class
  : ProgressionClass FibonacciProgression.t := {|
  upcast := FibonacciProgression.super;
  _advance := FibonacciProgression._advance
|}.

(** The state after [n] calls of [next(self)], and the value of the call
    that follows them: the [k]-th term produced, counted from zero. *)
Definition after {St : Type} `{ProgressionClass St} (n : nat) (self : St) : St :=
  snd (next_n n self).

Definition term {St : Type} `{ProgressionClass St} (k : nat) (self : St)
  : exn + Z :=
  fst (__next__ (after k self)).

(** The object after [n] calls [next(self)] whose outcome, value or
    exception, the caller discards. *)
Definition attempts {St : Type} `{ProgressionClass St} (n : nat) (self : St)
  : St :=
  Nat.iter n (fun s => snd (__next__ s)) self.

(** [_advance] returns normally on every object whose [_current] is a
    number. *)
Definition advance_returns (St : Type) `{ProgressionClass St} : Prop :=
  forall (self : St) (v : Z),
    current self = Some v -> fst (_advance self) = inr tt.

(** [_advance] returns normally and leaves a number in [_current] on every
    object whose [_current] is a number. *)
Definition advance_keeps_number (St : Type) `{ProgressionClass St} : Prop :=
  forall (self : St) (v : Z),
    current self = Some v ->
    fst (_advance self) = inr tt /\
    exists v1 : Z, current (snd (_advance self)) = Some v1.

(** No number of calls [next(self)] meets the end of the progression: the
    first [n] calls all return a number and leave a number in [_current]. *)
Definition never_exhausted {St : Type} `{ProgressionClass St} (self : St)
  : Prop :=
  forall n : nat,
    exists (l : list Z) (v : Z),
      next_n n self = (inr l, after n self) /\
      List.length l = n /\
      current (after n self) = Some v.

(** ** Vocabulary of the properties *)

Import CreditCard (_customer, _bank, _account, _limit, _balance).

(** The attributes of a card other than the balance. *)
Definition same_identity (c1 c2 : CreditCard.t) : Prop :=
  _customer c1 = _customer c2 /\
  _bank c1 = _bank c2 /\
  _account c1 = _account c2 /\
  _limit c1 = _limit c2.

Definition same_rest (p1 p2 : PredatoryCreditCard.t) : Prop :=
  same_identity (PredatoryCreditCard.super p1) (PredatoryCreditCard.super p2) /\
  PredatoryCreditCard._apr p1 = PredatoryCreditCard._apr p2.

(** ** The driver: paying a card down *)

Module Driver.

(** [print('New balance =', b)]: the printed line. *)
Definition new_balance_line (b : Z) : string := "New balance = " ++ str b.

(** The loop of the driver on one card of the wallet,
    [while card.get_balance() > 100: card.make_payment(100); print(...)]:
    the lines it prints and the card as it leaves it.  A payment of 100 on
    a balance above 100 brings the balance closer to 100, which bounds the
    number of turns. *)
Function pay_down (self : CreditCard.t)
  {measure (fun card => Z.to_nat (CreditCard.get_balance card - 100)) self}
  : list string * CreditCard.t :=
  if CreditCard.get_balance self >? 100 then
    let self1 := CreditCard.make_payment 100 self in
    let (lines, self2) := pay_down self1 in
    (new_balance_line (CreditCard.get_balance self1) :: lines, self2)
  else ([], self).
Proof.
  intros self Hgt. unfold CreditCard.get_balance in *. cbn.
  apply Z.gtb_lt in Hgt. lia.
Defined.

End Driver.

(** ** Sequences of calls and reference functions *)

(** The sum of a list of integers. *)
Definition total (l : list Z) : Z := fold_right Z.add 0 l.

(** The sum of the prices of the charges that were processed, given the
    results of the calls. *)
Fixpoint accepted_total (prices : list Z) (results : list bool) : Z :=
  match prices, results with
  | p :: ps, r :: rs => (if r then p else 0) + accepted_total ps rs
  | _, _ => 0
  end.

(** The number of charges that were denied. *)
Definition denied_count (results : list bool) : Z :=
  Z.of_nat (List.length (filter negb results)).

(** A sequence of calls [self.make_payment(a)] for [a] in [amounts], in
    order. *)
Definition payments (amounts : list Z) (self : CreditCard.t) : CreditCard.t :=
  fold_left (fun c a => CreditCard.make_payment a c) amounts self.

(** A sequence of calls of [charge] and [make_payment] on a predatory
    card, in order. *)
Definition performs (calls : list PredatoryCreditCard.call)
  (self : PredatoryCreditCard.t) : PredatoryCreditCard.t :=
  fold_left (fun p c => PredatoryCreditCard.perform c p) calls self.

(** The Fibonacci numbers 0, 1, 1, 2, 3, 5, ... *)
Fixpoint fib_pair (n : nat) : Z * Z :=
  match n with
  | O => (0, 1)
  | S k => let (a, b) := fib_pair k in (b, a + b)
  end.

Definition fib (n : nat) : Z := fst (fib_pair n).

(** ** Proof automation *)

(** Goals about balances and limits read through the accessors. *)
Ltac getters :=
  unfold PredatoryCreditCard.get_balance, PredatoryCreditCard.get_limit,
    CreditCard.get_balance, CreditCard.get_limit in *;
  cbn -[Z.mul Z.add Z.sub Z.of_nat Z.to_nat] in *; lia.

(** For the subclasses of [Progression]: the attribute read is a number,
    so the match in [_advance] takes the branch that assigns. *)
Ltac advance_on_number :=
  intros [[c] ?] v Hc; unfold current in *; cbn in *; subst c; cbn;
  split; [reflexivity | eexists; reflexivity].

(** * Properties *)

(** ** Credit cards *)

Lemma charge_denied (price : Z) (self : CreditCard.t) :
  _balance self + price > _limit self ->
  CreditCard.charge price self = (false, self).
Proof.
  intros Hover. unfold CreditCard.charge.
  destruct (Z.gtb_spec (price + _balance self) (_limit self)) as [_ | Hle].
  - reflexivity.
  - lia.
Qed.

Lemma charge_processed (price : Z) (self : CreditCard.t) :
  _balance self + price <= _limit self ->
  CreditCard.charge price self =
    (true, CreditCard.set_balance (_balance self + price) self).
Proof.
  intros Hfits. unfold CreditCard.charge.
  destruct (Z.gtb_spec (price + _balance self) (_limit self)) as [Hgt | _].
  - lia.
  - reflexivity.
Qed.

Lemma charge_cases (price : Z) (self : CreditCard.t) :
  (_balance self + price > _limit self /\
   CreditCard.charge price self = (false, self)) \/
  (_balance self + price <= _limit self /\
   CreditCard.charge price self =
     (true, CreditCard.set_balance (_balance self + price) self)).
Proof.
  destruct (Z_gt_le_dec (_balance self + price) (_limit self)) as [H | H].
  - left. split; [exact H | now apply charge_denied].
  - right. split; [exact H | now apply charge_processed].
Qed.

Lemma charge_limit (price : Z) (self : CreditCard.t) :
  _limit (snd (CreditCard.charge price self)) = _limit self.
Proof.
  destruct (charge_cases price self) as [[_ E] | [_ E]]; rewrite E; reflexivity.
Qed.

(** C1: [charge(price)] returns [False] and leaves the card as it was when
    balance + price exceeds the limit; otherwise it returns [True], the
    balance has grown by [price] and nothing else has changed.  On the card
    [CreditCard('A','B','111',2500)], [charge(2400)] is processed and leaves
    the balance at 2400, and the following [charge(200)] is denied and
    leaves it at 2400. *)
Theorem credit_charge_correct :
  (forall (self : CreditCard.t) (price : Z),
     (_balance self + price > _limit self ->
        fst (CreditCard.charge price self) = false /\
        snd (CreditCard.charge price self) = self) /\
     (_balance self + price <= _limit self ->
        fst (CreditCard.charge price self) = true /\
        _balance (snd (CreditCard.charge price self)) = _balance self + price /\
        same_identity (snd (CreditCard.charge price self)) self)) /\
  (let c0 := CreditCard.__init__ "A" "B" "111" 2500 in
   let c1 := snd (CreditCard.charge 2400 c0) in
   let c2 := snd (CreditCard.charge 200 c1) in
   CreditCard.get_balance c0 = 0 /\
   fst (CreditCard.charge 2400 c0) = true /\
   CreditCard.get_balance c1 = 2400 /\
   fst (CreditCard.charge 200 c1) = false /\
   CreditCard.get_balance c2 = 2400).
Proof.
  split.
  - intros self price. split; intros H.
    + rewrite (charge_denied _ _ H). split; reflexivity.
    + rewrite (charge_processed _ _ H). cbn. repeat split.
  - cbv. repeat split.
Qed.







(** ** Predatory credit cards *)

Lemma predatory_charge_denied (price : Z) (self : PredatoryCreditCard.t) :
  PredatoryCreditCard.get_balance self + price
    > PredatoryCreditCard.get_limit self ->
  PredatoryCreditCard.charge price self =
    (false,
     PredatoryCreditCard.with_super
       (CreditCard.set_balance (PredatoryCreditCard.get_balance self + 5)
          (PredatoryCreditCard.super self))
       self).
Proof.
  intros Hover. unfold PredatoryCreditCard.charge.
  rewrite (charge_denied price (PredatoryCreditCard.super self) Hover).
  reflexivity.
Qed.

Lemma predatory_charge_processed (price : Z) (self : PredatoryCreditCard.t) :
  PredatoryCreditCard.get_balance self + price
    <= PredatoryCreditCard.get_limit self ->
  PredatoryCreditCard.charge price self =
    (true,
     PredatoryCreditCard.with_super
       (CreditCard.set_balance (PredatoryCreditCard.get_balance self + price)
          (PredatoryCreditCard.super self))
       self).
Proof.
  intros Hfits. unfold PredatoryCreditCard.charge.
  rewrite (charge_processed price (PredatoryCreditCard.super self) Hfits).
  reflexivity.
Qed.

(** C3: on a predatory card a denied charge (balance + price above the
    limit) returns [False] and the balance has grown by exactly 5, whatever
    the balance was; a processed charge returns [True] and the balance has
    grown by exactly [price].  Limit, rate and identity are unchanged.  On
    [PredatoryCreditCard('A','B','111',2500,0.12)], [charge(2600)] returns
    [False] and the balance becomes 5. *)
Theorem predatory_charge_correct :
  (forall (self : PredatoryCreditCard.t) (price : Z),
     let r := fst (PredatoryCreditCard.charge price self) in
     let self1 := snd (PredatoryCreditCard.charge price self) in
     (PredatoryCreditCard.get_balance self + price
        > PredatoryCreditCard.get_limit self ->
      r = false /\
      PredatoryCreditCard.get_balance self1
        = PredatoryCreditCard.get_balance self + 5 /\
      same_rest self1 self) /\
     (PredatoryCreditCard.get_balance self + price
        <= PredatoryCreditCard.get_limit self ->
      r = true /\
      PredatoryCreditCard.get_balance self1
        = PredatoryCreditCard.get_balance self + price /\
      same_rest self1 self)) /\
  (let p0 := PredatoryCreditCard.__init__ "A" "B" "111" 2500 (12 # 100) in
   PredatoryCreditCard.get_balance p0 = 0 /\
   fst (PredatoryCreditCard.charge 2600 p0) = false /\
   PredatoryCreditCard.get_balance (snd (PredatoryCreditCard.charge 2600 p0))
     = 5).
Proof.
  split.
  - intros self price. cbv zeta. split; intros H.
    + rewrite (predatory_charge_denied _ _ H). cbn. repeat split.
    + rewrite (predatory_charge_processed _ _ H). cbn. repeat split.
  - cbv. repeat split.
Qed.

(** C5: [make_payment(amount)] lowers the balance by exactly [amount] on a
    card of either class, for every integer amount, and changes nothing
    else; a negative amount raises the balance and an amount above the
    balance makes it negative. *)
Theorem make_payment_correct :
  (forall (self : CreditCard.t) (amount : Z),
     _balance (CreditCard.make_payment amount self) = _balance self - amount /\
     same_identity (CreditCard.make_payment amount self) self) /\
  (forall (self : PredatoryCreditCard.t) (amount : Z),
     PredatoryCreditCard.get_balance
       (PredatoryCreditCard.make_payment amount self)
       = PredatoryCreditCard.get_balance self - amount /\
     same_rest (PredatoryCreditCard.make_payment amount self) self) /\
  (let c := snd (CreditCard.charge 100 (CreditCard.__init__ "A" "B" "111" 2500)) in
   CreditCard.get_balance (CreditCard.make_payment (-40) c) = 140 /\
   CreditCard.get_balance (CreditCard.make_payment 250 c) = -150).
Proof.
  split; [| split].
  - intros self amount. cbn. repeat split.
  - intros self amount. cbn. repeat split.
  - cbv. repeat split.
Qed.

(** ** Predatory cards above their limit *)

Lemma predatory_charge_limit (price : Z) (self : PredatoryCreditCard.t) :
  PredatoryCreditCard.get_limit (snd (PredatoryCreditCard.charge price self))
    = PredatoryCreditCard.get_limit self.
Proof.
  destruct (Z_gt_le_dec
              (PredatoryCreditCard.get_balance self + price)
              (PredatoryCreditCard.get_limit self)) as [H | H].
  - rewrite (predatory_charge_denied _ _ H). reflexivity.
  - rewrite (predatory_charge_processed _ _ H). reflexivity.
Qed.






(** ** Progressions: the inherited [__next__] *)

Section Next.

Context {St : Type} `{ProgressionClass St}.

Lemma next_exhausted (self : St) :
  current self = None -> __next__ self = (inl StopIteration, self).
Proof.
  intros Hc. unfold __next__, bind, gets. rewrite Hc. reflexivity.
Qed.

Lemma next_active (self : St) (v : Z) :
  current self = Some v ->
  __next__ self =
    match _advance self with
    | (inl e, self1) => (inl e, self1)
    | (inr _, self1) => (inr v, self1)
    end.
Proof.
  intros Hc. unfold __next__, bind, gets, ret. rewrite Hc.
  destruct (_advance self) as [[e | u] self1]; reflexivity.
Qed.

Lemma next_returns (self : St) (v : Z) :
  current self = Some v ->
  fst (_advance self) = inr tt ->
  __next__ self = (inr v, snd (_advance self)).
Proof.
  intros Hc Hadv. rewrite (next_active self v Hc).
  destruct (_advance self) as [[e | u] self1]; cbn in *.
  - discriminate.
  - reflexivity.
Qed.

Lemma attempts_exhausted (n : nat) (self : St) :
  current self = None -> attempts n self = self.
Proof.
  intros Hc. induction n as [| n IH].
  - reflexivity.
  - change (attempts (S n) self) with (snd (__next__ (attempts n self))).
    rewrite IH, (next_exhausted self Hc). reflexivity.
Qed.

Lemma next_n_S (k : nat) (self self1 : St) (x : Z) :
  __next__ self = (inr x, self1) ->
  next_n (S k) self =
    match next_n k self1 with
    | (inl e, self2) => (inl e, self2)
    | (inr xs, self2) => (inr (x :: xs), self2)
    end.
Proof.
  intros Hnext. cbn [next_n]. unfold bind at 1. rewrite Hnext.
  unfold bind, ret. destruct (next_n k self1) as [[e | xs] self2]; reflexivity.
Qed.

Lemma after_S (k : nat) (self self1 : St) (x : Z) :
  __next__ self = (inr x, self1) -> after (S k) self = after k self1.
Proof.
  intros Hnext. unfold after. rewrite (next_n_S k self self1 x Hnext).
  destruct (next_n k self1) as [[e | xs] self2]; reflexivity.
Qed.

Lemma term_S (k : nat) (self self1 : St) (x : Z) :
  __next__ self = (inr x, self1) -> term (S k) self = term k self1.
Proof.
  intros Hnext. unfold term. rewrite (after_S k self self1 x Hnext).
  reflexivity.
Qed.

Lemma term_O (self : St) : term 0 self = fst (__next__ self).
Proof. reflexivity. Qed.

Lemma keeps_number_never_exhausted :
  advance_keeps_number St ->
  forall (self : St) (v : Z), current self = Some v -> never_exhausted self.
Proof.
  intros Hkeep self v Hc n. revert self v Hc.
  induction n as [| n IH]; intros self v Hc.
  - exists [], v. repeat split. exact Hc.
  - destruct (Hkeep self v Hc) as (Hadv & v1 & Hc1).
    pose proof (next_returns self v Hc Hadv) as Hnext.
    destruct (IH (snd (_advance self)) v1 Hc1) as (l & w & Hl & Hlen & Hw).
    exists (v :: l), w.
    rewrite (after_S n self _ v Hnext), (next_n_S n self _ v Hnext), Hl.
    repeat split.
    + cbn. now rewrite Hlen.
    + exact Hw.
Qed.

(** C6: for a class of the hierarchy whose [_advance] returns normally on
    numbers, [__next__] raises [StopIteration] exactly when [_current] is
    [None]; the object is then unchanged, so that every later call raises
    [StopIteration] again; and when [_current] is a number [v], [__next__]
    returns [v] and leaves the object as one call of [_advance] leaves
    it. *)
Theorem next_stops_iff_exhausted (Hadv : advance_returns St) (self : St) :
  (fst (__next__ self) = inl StopIteration <-> current self = None) /\
  (current self = None ->
     __next__ self = (inl StopIteration, self) /\
     forall n : nat,
       attempts n self = self /\
       fst (__next__ (attempts n self)) = inl StopIteration) /\
  (forall v : Z,
     current self = Some v ->
     __next__ self = (inr v, snd (_advance self))).
Proof.
  repeat apply conj.
  - destruct (current self) as [v |] eqn:Hc.
    + rewrite (next_returns self v Hc (Hadv self v Hc)). cbn. discriminate.
    + intros _. reflexivity.
  - intros Hc. now rewrite (next_exhausted self Hc).
  - intros Hc. split.
    + now apply next_exhausted.
    + intros n. rewrite (attempts_exhausted n self Hc).
      split; [reflexivity | now rewrite (next_exhausted self Hc)].
  - intros v Hc. apply (next_returns self v Hc (Hadv self v Hc)).
Qed.

End Next.

(** ** Progressions: the four classes *)

Lemma keeps_number_returns {St : Type} `{ProgressionClass St} :
  advance_keeps_number St -> advance_returns St.
Proof.
  intros Hkeep self v Hc. apply (Hkeep self v Hc).
Qed.

Lemma Progression_keeps_number : advance_keeps_number Progression.t.
Proof.
  intros [c] v Hc. unfold current in *. cbn in *. subst c. cbn.
  split; [reflexivity | eexists; reflexivity].
Qed.

Lemma Arithmetic_keeps_number : advance_keeps_number ArithmeticProgression.t.
Proof. advance_on_number. Qed.

Lemma Geometric_keeps_number : advance_keeps_number GeometricProgression.t.
Proof. advance_on_number. Qed.

Lemma Fibonacci_keeps_number : advance_keeps_number FibonacciProgression.t.
Proof. advance_on_number. Qed.

(** The four classes of the file meet the hypothesis of C6; the theorem on
    an exhausted [Progression(None)] and on [FibonacciProgression(4, 6)]. *)
Lemma next_stops_iff_exhausted_witness :
  advance_returns Progression.t /\
  advance_returns ArithmeticProgression.t /\
  advance_returns GeometricProgression.t /\
  advance_returns FibonacciProgression.t /\
  (let self := Progression.__init__ None in
   (fst (__next__ self) = inl StopIteration <-> current self = None) /\
   (current self = None ->
      __next__ self = (inl StopIteration, self) /\
      forall n : nat,
        attempts n self = self /\
        fst (__next__ (attempts n self)) = inl StopIteration) /\
   (forall v : Z,
      current self = Some v ->
      __next__ self = (inr v, snd (_advance self)))) /\
  (let self := FibonacciProgression.__init__ 4 6 in
   (fst (__next__ self) = inl StopIteration <-> current self = None) /\
   (current self = None ->
      __next__ self = (inl StopIteration, self) /\
      forall n : nat,
        attempts n self = self /\
        fst (__next__ (attempts n self)) = inl StopIteration) /\
   (forall v : Z,
      current self = Some v ->
      __next__ self = (inr v, snd (_advance self)))).
Proof.
  split; [| split; [| split; [| split; [| split]]]].
  - exact (keeps_number_returns Progression_keeps_number).
  - exact (keeps_number_returns Arithmetic_keeps_number).
  - exact (keeps_number_returns Geometric_keeps_number).
  - exact (keeps_number_returns Fibonacci_keeps_number).
  - exact (next_stops_iff_exhausted
             (keeps_number_returns Progression_keeps_number)
             (Progression.__init__ None)).
  - exact (next_stops_iff_exhausted
             (keeps_number_returns Fibonacci_keeps_number)
             (FibonacciProgression.__init__ 4 6)).
Defined.

(** C7: an object of any of the four classes created with numbers is never
    exhausted: for every [n], the first [n] calls [next(self)] all return a
    number, none raises, and [_current] is a number afterwards. *)
Theorem sentinel_unreachable :
  (forall start : Z, never_exhausted (Progression.__init__ (Some start))) /\
  (forall increment start : Z,
     never_exhausted (ArithmeticProgression.__init__ increment (Some start))) /\
  (forall base start : Z,
     never_exhausted (GeometricProgression.__init__ base (Some start))) /\
  (forall first second : Z,
     never_exhausted (FibonacciProgression.__init__ first second)).
Proof.
  repeat apply conj; intros.
  - apply (keeps_number_never_exhausted Progression_keeps_number _ start).
    reflexivity.
  - apply (keeps_number_never_exhausted Arithmetic_keeps_number _ start).
    reflexivity.
  - apply (keeps_number_never_exhausted Geometric_keeps_number _ start).
    reflexivity.
  - apply (keeps_number_never_exhausted Fibonacci_keeps_number _ first).
    reflexivity.
Qed.

(** ** Arithmetic and geometric progressions *)

Lemma Arithmetic_next (increment v : Z) :
  __next__ (ArithmeticProgression.__init__ increment (Some v)) =
    (inr v, ArithmeticProgression.__init__ increment (Some (v + increment))).
Proof. reflexivity. Qed.

Lemma Geometric_next (base v : Z) :
  __next__ (GeometricProgression.__init__ base (Some v)) =
    (inr v, GeometricProgression.__init__ base (Some (v * base))).
Proof. reflexivity. Qed.

Lemma Arithmetic_term (increment : Z) (k : nat) :
  forall start : Z,
    term k (ArithmeticProgression.__init__ increment (Some start))
      = inr (start + Z.of_nat k * increment).
Proof.
  induction k as [| k IH]; intros start.
  - rewrite term_O, Arithmetic_next. cbn [fst]. f_equal. lia.
  - rewrite (term_S k _ _ _ (Arithmetic_next increment start)), IH.
    f_equal. lia.
Qed.

Lemma Geometric_term (base : Z) (k : nat) :
  forall start : Z,
    term k (GeometricProgression.__init__ base (Some start))
      = inr (start * base ^ Z.of_nat k).
Proof.
  induction k as [| k IH]; intros start.
  - rewrite term_O, Geometric_next. cbn [fst]. f_equal.
    change (Z.of_nat 0) with 0. rewrite Z.pow_0_r. lia.
  - rewrite (term_S k _ _ _ (Geometric_next base start)), IH.
    f_equal. rewrite Nat2Z.inj_succ, Z.pow_succ_r by lia. lia.
Qed.

(** C9: the [k]-th value returned by [next], counted from zero, is
    [start + k * increment] for [ArithmeticProgression(increment, start)]
    and [start * base ** k] for [GeometricProgression(base, start)].
    [ArithmeticProgression(5, 2)] starts 2 7 12 17 22 and
    [GeometricProgression(3)], whose start is 1, starts 1 3 9 27 81; these
    are the lines [print_progression(5)] prints. *)
Theorem arithmetic_geometric_terms :
  (forall (increment start : Z) (k : nat),
     term k (ArithmeticProgression.__init__ increment (Some start))
       = inr (start + Z.of_nat k * increment)) /\
  (forall (base start : Z) (k : nat),
     term k (GeometricProgression.__init__ base (Some start))
       = inr (start * base ^ Z.of_nat k)) /\
  (let a := ArithmeticProgression.__init__ 5 (Some 2) in
   fst (next_n 5 a) = inr [2; 7; 12; 17; 22] /\
   fst (print_progression 5 a) = inr "2 7 12 17 22") /\
  (let g := GeometricProgression.__init__ 3 GeometricProgression.default_start in
   fst (next_n 5 g) = inr [1; 3; 9; 27; 81] /\
   fst (print_progression 5 g) = inr "1 3 9 27 81").
Proof.
  repeat apply conj.
  - intros increment start k. apply Arithmetic_term.
  - intros base start k. apply Geometric_term.
  - reflexivity.
  - reflexivity.
  - reflexivity.
  - reflexivity.
Qed.

(** ** Fibonacci progressions *)

Lemma Fibonacci_next (prev v : Z) :
  __next__ {| FibonacciProgression.super := {| Progression._current := Some v |};
              FibonacciProgression._prev := prev |} =
    (inr v,
     {| FibonacciProgression.super := {| Progression._current := Some (prev + v) |};
        FibonacciProgression._prev := v |}).
Proof. reflexivity. Qed.

(** From any object with a number in [_current], each term from the third
    on is the sum of the two before it. *)
Lemma Fibonacci_recurrence (k : nat) :
  forall prev v : Z,
    let self :=
      {| FibonacciProgression.super := {| Progression._current := Some v |};
         FibonacciProgression._prev := prev |} in
    exists a b : Z,
      term k self = inr a /\
      term (S k) self = inr b /\
      term (S (S k)) self = inr (a + b).
Proof.
  induction k as [| k IH]; intros prev v; cbv zeta.
  - exists v, (prev + v). repeat split.
  - destruct (IH v (prev + v)) as (a & b & Ha & Hb & Hab).
    exists a, b.
    rewrite !(term_S _ _ _ _ (Fibonacci_next prev v)).
    repeat split; assumption.
Qed.

(** C8: [FibonacciProgression(first, second)] sets [_current] to [first]
    and [_prev] to [second - first]; the values returned by [next] start
    with [first], then [second], and each later one is the sum of the two
    before it.  [FibonacciProgression(4, 6)] starts 4 6 10 16 26 42, the
    line [print_progression(6)] prints. *)
Theorem fibonacci_terms :
  (forall first second : Z,
     let self := FibonacciProgression.__init__ first second in
     current self = Some first /\
     FibonacciProgression._prev self = second - first /\
     term 0 self = inr first /\
     term 1 self = inr second /\
     forall k : nat,
       exists a b : Z,
         term k self = inr a /\
         term (S k) self = inr b /\
         term (S (S k)) self = inr (a + b)) /\
  (let f := FibonacciProgression.__init__ 4 6 in
   fst (next_n 6 f) = inr [4; 6; 10; 16; 26; 42] /\
   fst (print_progression 6 f) = inr "4 6 10 16 26 42").
Proof.
  split.
  - intros first second. cbv zeta. repeat apply conj.
    + reflexivity.
    + reflexivity.
    + reflexivity.
    + unfold FibonacciProgression.__init__, Progression.__init__.
      rewrite (term_S 0 _ _ _ (Fibonacci_next (second - first) first)).
      rewrite term_O, Fibonacci_next. cbn [fst]. f_equal. lia.
    + intros k. apply Fibonacci_recurrence.
  - split; reflexivity.
Qed.

(** * Further properties *)

(** ** Sequences of charges on a credit card *)

Lemma charge_result_iff (price : Z) (self : CreditCard.t) :
  fst (CreditCard.charge price self) = true
    <-> _balance self + price <= _limit self.
Proof.
  destruct (charge_cases price self) as [[H E] | [H E]]; rewrite E; cbn.
  - split; [discriminate | lia].
  - split; [intros _; exact H | reflexivity].
Qed.

Lemma total_cons (p : Z) (ps : list Z) : total (p :: ps) = p + total ps.
Proof. reflexivity. Qed.

Lemma total_nonneg (l : list Z) :
  Forall (fun p => 0 <= p) l -> 0 <= total l.
Proof.
  induction 1 as [| p ps Hp _ IH].
  - cbn. lia.
  - rewrite total_cons. lia.
Qed.

Lemma same_identity_trans (c1 c2 c3 : CreditCard.t) :
  same_identity c1 c2 -> same_identity c2 c3 -> same_identity c1 c3.
Proof.
  unfold same_identity. intros (A1 & A2 & A3 & A4) (B1 & B2 & B3 & B4).
  repeat split; congruence.
Qed.

Lemma charge_same_identity (price : Z) (self : CreditCard.t) :
  same_identity (snd (CreditCard.charge price self)) self.
Proof.
  destruct (charge_cases price self) as [[_ E] | [_ E]]; rewrite E;
    repeat split.
Qed.

(** X1: after any sequence of charges there is one result for each price,
    the balance has grown by the sum of the prices of the charges that
    were processed and by nothing else, and customer, bank, account and
    limit are as before. *)
Theorem credit_charges_ledger (prices : list Z) :
  forall self : CreditCard.t,
    let results := fst (CreditCard.charges prices self) in
    let self1 := snd (CreditCard.charges prices self) in
    List.length results = List.length prices /\
    _balance self1 = _balance self + accepted_total prices results /\
    same_identity self1 self.
Proof.
  induction prices as [| p ps IH]; intros self; cbv zeta.
  - cbn. repeat split. lia.
  - cbn [CreditCard.charges].
    pose proof (charge_same_identity p self) as Hid.
    destruct (charge_cases p self) as [[_ E] | [_ E]]; rewrite E in *;
      cbn [snd] in Hid;
      match goal with
      | |- context [CreditCard.charges ps ?c] =>
          specialize (IH c); cbv zeta in IH;
          destruct (CreditCard.charges ps c) as [rs self2];
          cbn [fst snd] in *; destruct IH as (Hlen & Hbal & Hid2)
      end.
    + repeat split; cbn [List.length accepted_total]; try lia; apply Hid2.
    + split; [cbn [List.length]; lia |].
      split; [cbn [accepted_total]; cbn in Hbal; lia |].
      apply (same_identity_trans _ _ _ Hid2 Hid).
Qed.

(** X2: on a card within its limit, a sequence of charges of prices that
    are not negative is processed in full exactly when the balance plus
    the sum of the prices stays within the limit, and the balance then
    grows by that sum. *)
Theorem charges_all_processed (prices : list Z) :
  forall self : CreditCard.t,
    Forall (fun p => 0 <= p) prices ->
    _balance self <= _limit self ->
    (fst (CreditCard.charges prices self) = repeat true (List.length prices)
       <-> _balance self + total prices <= _limit self) /\
    (_balance self + total prices <= _limit self ->
       _balance (snd (CreditCard.charges prices self))
         = _balance self + total prices).
Proof.
  induction prices as [| p ps IH]; intros self Hall Hin.
  - cbn. split; [split; [lia | reflexivity] | lia].
  - inversion Hall as [| p' ps' Hp Hps]; subst.
    pose proof (total_nonneg ps Hps) as Htot.
    cbn [CreditCard.charges List.length repeat]. rewrite total_cons.
    destruct (charge_cases p self) as [[Hover E] | [Hfits E]]; rewrite E.
    + destruct (CreditCard.charges ps self) as [rs self2]. cbn [fst snd].
      split; [split; [discriminate | lia] | lia].
    + set (self1 := CreditCard.set_balance (_balance self + p) self).
      assert (Hin1 : _balance self1 <= _limit self1) by (subst self1; cbn; lia).
      destruct (IH self1 Hps Hin1) as [Hiff Hbal].
      destruct (CreditCard.charges ps self1) as [rs self2]. cbn [fst snd] in *.
      subst self1. cbn in Hiff, Hbal.
      split.
      * split.
        -- intros Heq. injection Heq as Heq. apply Hiff in Heq. lia.
        -- intros Hsum. f_equal. apply Hiff. lia.
      * intros Hsum. rewrite Hbal by lia. lia.
Qed.

(** The charges of the driver on its third card, [3 * val] for [val] from
    1 to 16, against the limit 5000. *)
Lemma charges_all_processed_witness :
  let prices := map (fun val => 3 * Z.of_nat val) (seq 1 16) in
  let self := CreditCard.__init__ "John Bowman" "California Finance"
                "5391 0375 9387 5309" 5000 in
  Forall (fun p => 0 <= p) prices /\
  _balance self <= _limit self /\
  (fst (CreditCard.charges prices self) = repeat true (List.length prices)
     <-> _balance self + total prices <= _limit self) /\
  (_balance self + total prices <= _limit self ->
     _balance (snd (CreditCard.charges prices self))
       = _balance self + total prices).
Proof.
  intros prices self.
  assert (Hall : Forall (fun p => 0 <= p) prices).
  { subst prices. apply Forall_forall. intros p Hp.
    apply in_map_iff in Hp. destruct Hp as (val & Hval & _). lia. }
  assert (Hin : _balance self <= _limit self) by (cbn; lia).
  split; [exact Hall |]. split; [exact Hin |].
  exact (charges_all_processed prices self Hall Hin).
Defined.

(** X3: a charge that was processed is undone by a payment of the same
    amount, a payment on a card within its limit is undone by a charge of
    the same amount, which is processed, and on a predatory card a denied
    charge is undone by a payment of 5: the card is exactly as before. *)
Theorem charge_payment_round_trip (amount : Z) :
  (forall self : CreditCard.t,
     fst (CreditCard.charge amount self) = true ->
     CreditCard.make_payment amount (snd (CreditCard.charge amount self))
       = self) /\
  (forall self : CreditCard.t,
     _balance self <= _limit self ->
     CreditCard.charge amount (CreditCard.make_payment amount self)
       = (true, self)) /\
  (forall self : PredatoryCreditCard.t,
     fst (PredatoryCreditCard.charge amount self) = false ->
     PredatoryCreditCard.make_payment 5
       (snd (PredatoryCreditCard.charge amount self)) = self).
Proof.
  repeat apply conj.
  - intros self Hok. apply charge_result_iff in Hok.
    rewrite (charge_processed amount self Hok).
    destruct self as [cu ba ac li b]. unfold CreditCard.make_payment,
      CreditCard.set_balance. cbn. f_equal. lia.
  - intros self Hin.
    assert (Hfits : _balance (CreditCard.make_payment amount self) + amount
                    <= _limit (CreditCard.make_payment amount self))
      by (cbn; lia).
    rewrite (charge_processed amount _ Hfits).
    destruct self as [cu ba ac li b]. unfold CreditCard.make_payment,
      CreditCard.set_balance. cbn. do 2 f_equal. lia.
  - intros self Hdenied.
    destruct (Z_gt_le_dec
                (PredatoryCreditCard.get_balance self + amount)
                (PredatoryCreditCard.get_limit self)) as [H | H].
    + rewrite (predatory_charge_denied amount self H).
      destruct self as [[cu ba ac li b] apr].
      unfold PredatoryCreditCard.make_payment, PredatoryCreditCard.with_super,
        CreditCard.make_payment, CreditCard.set_balance,
        PredatoryCreditCard.get_balance, CreditCard.get_balance.
      cbn. do 2 f_equal. lia.
    + rewrite (predatory_charge_processed amount self H) in Hdenied.
      discriminate.
Qed.

(** ** Denied charges *)

Lemma predatory_charge_result (price : Z) (self : PredatoryCreditCard.t) :
  fst (PredatoryCreditCard.charge price self)
    = fst (CreditCard.charge price (PredatoryCreditCard.super self)).
Proof.
  unfold PredatoryCreditCard.charge.
  destruct (CreditCard.charge price (PredatoryCreditCard.super self))
    as [[|] c]; reflexivity.
Qed.

Lemma predatory_denied_iff (price : Z) (self : PredatoryCreditCard.t) :
  fst (PredatoryCreditCard.charge price self) = false
    <-> PredatoryCreditCard.get_balance self + price
          > PredatoryCreditCard.get_limit self.
Proof.
  destruct (Z_gt_le_dec
              (PredatoryCreditCard.get_balance self + price)
              (PredatoryCreditCard.get_limit self)) as [H | H].
  - rewrite (predatory_charge_denied price self H). cbn. tauto.
  - rewrite (predatory_charge_processed price self H). cbn.
    split; [discriminate | lia].
Qed.

(** X4: a charge that is denied is denied again however often it is
    repeated, whatever its price.  The base card is left as it was; the
    predatory card pays the fee each time, so [n] attempts raise its
    balance by [5 * n]. *)
Theorem denied_charge_stays_denied (price : Z) (n : nat) :
  forall self : PredatoryCreditCard.t,
    fst (PredatoryCreditCard.charge price self) = false ->
    CreditCard.charges (repeat price n) (PredatoryCreditCard.super self)
      = (repeat false n, PredatoryCreditCard.super self) /\
    fst (PredatoryCreditCard.charges (repeat price n) self) = repeat false n /\
    PredatoryCreditCard.get_balance
      (snd (PredatoryCreditCard.charges (repeat price n) self))
      = PredatoryCreditCard.get_balance self + 5 * Z.of_nat n.
Proof.
  induction n as [| n IH]; intros self Hdenied.
  - cbn. repeat split. lia.
  - pose proof (proj1 (predatory_denied_iff price self) Hdenied) as Hover.
    cbn [repeat CreditCard.charges PredatoryCreditCard.charges].
    rewrite (charge_denied price (PredatoryCreditCard.super self) Hover).
    rewrite (predatory_charge_denied price self Hover).
    set (self1 := PredatoryCreditCard.with_super _ self).
    assert (Hdenied1 : fst (PredatoryCreditCard.charge price self1) = false).
    { apply predatory_denied_iff. subst self1. getters. }
    destruct (IH self Hdenied) as (Hbase & _ & _).
    destruct (IH self1 Hdenied1) as (_ & Hres & Hbal).
    rewrite Hbase.
    destruct (PredatoryCreditCard.charges (repeat price n) self1)
      as [rs self2].
    cbn [fst snd] in *. subst rs. rewrite Hbal. subst self1.
    repeat split. getters.
Qed.

(** A charge of 2600 on the card of scenario 2, tried four times. *)
Lemma denied_charge_stays_denied_witness :
  let self := PredatoryCreditCard.__init__ "A" "B" "111" 2500 (12 # 100) in
  fst (PredatoryCreditCard.charge 2600 self) = false /\
  CreditCard.charges (repeat 2600 4) (PredatoryCreditCard.super self)
    = (repeat false 4, PredatoryCreditCard.super self) /\
  fst (PredatoryCreditCard.charges (repeat 2600 4) self) = repeat false 4 /\
  PredatoryCreditCard.get_balance
    (snd (PredatoryCreditCard.charges (repeat 2600 4) self))
    = PredatoryCreditCard.get_balance self + 5 * Z.of_nat 4.
Proof.
  intros self.
  assert (Hdenied : fst (PredatoryCreditCard.charge 2600 self) = false)
    by reflexivity.
  split; [exact Hdenied |].
  exact (denied_charge_stays_denied 2600 4 self Hdenied).
Defined.

(** X5: a smaller price fits whenever a larger one does: if [charge(q)]
    would be processed then so would [charge(p)] for every [p <= q], and
    if [charge(p)] would be denied then so would [charge(q)]; the same on
    a predatory card. *)
Theorem charge_monotone_in_price (p q : Z) :
  p <= q ->
  (forall self : CreditCard.t,
     (fst (CreditCard.charge q self) = true ->
      fst (CreditCard.charge p self) = true) /\
     (fst (CreditCard.charge p self) = false ->
      fst (CreditCard.charge q self) = false)) /\
  (forall self : PredatoryCreditCard.t,
     (fst (PredatoryCreditCard.charge q self) = true ->
      fst (PredatoryCreditCard.charge p self) = true) /\
     (fst (PredatoryCreditCard.charge p self) = false ->
      fst (PredatoryCreditCard.charge q self) = false)).
Proof.
  intros Hpq.
  assert (Hbase : forall self : CreditCard.t,
             (fst (CreditCard.charge q self) = true ->
              fst (CreditCard.charge p self) = true) /\
             (fst (CreditCard.charge p self) = false ->
              fst (CreditCard.charge q self) = false)).
  { intros self.
    pose proof (charge_result_iff p self) as Hp.
    pose proof (charge_result_iff q self) as Hq.
    split.
    - intros Hok. apply Hp. apply Hq in Hok. lia.
    - intros Hno.
      destruct (fst (CreditCard.charge q self)) eqn:E; [| reflexivity].
      assert (Hfits : _balance self + p <= _limit self)
        by (pose proof (proj1 Hq eq_refl); lia).
      apply Hp in Hfits. congruence. }
  split; [exact Hbase |].
  intros self. rewrite !predatory_charge_result. apply Hbase.
Qed.

Lemma charge_monotone_in_price_witness :
  200 <= 2400 /\
  (forall self : CreditCard.t,
     (fst (CreditCard.charge 2400 self) = true ->
      fst (CreditCard.charge 200 self) = true) /\
     (fst (CreditCard.charge 200 self) = false ->
      fst (CreditCard.charge 2400 self) = false)) /\
  (forall self : PredatoryCreditCard.t,
     (fst (PredatoryCreditCard.charge 2400 self) = true ->
      fst (PredatoryCreditCard.charge 200 self) = true) /\
     (fst (PredatoryCreditCard.charge 200 self) = false ->
      fst (PredatoryCreditCard.charge 2400 self) = false)).
Proof.
  assert (Hle : 200 <= 2400) by lia.
  split; [exact Hle |].
  exact (charge_monotone_in_price 200 2400 Hle).
Defined.

(** ** Predatory cards against base cards *)

(** X6: as long as no charge is denied, a predatory card behaves as the
    base card it extends: if the base card processes every charge of a
    sequence, the predatory card returns the same results and its
    inherited attributes are those of the base card afterwards. *)
Theorem predatory_agrees_while_processed (prices : list Z) :
  forall self : PredatoryCreditCard.t,
    fst (CreditCard.charges prices (PredatoryCreditCard.super self))
      = repeat true (List.length prices) ->
    PredatoryCreditCard.charges prices self
      = (repeat true (List.length prices),
         PredatoryCreditCard.with_super
           (snd (CreditCard.charges prices (PredatoryCreditCard.super self)))
           self).
Proof.
  induction prices as [| p ps IH]; intros self Hall.
  - destruct self as [c apr]. reflexivity.
  - cbn [CreditCard.charges PredatoryCreditCard.charges List.length repeat] in *.
    destruct (charge_cases p (PredatoryCreditCard.super self))
      as [[Hover E] | [Hfits E]]; rewrite E in Hall |- *.
    + destruct (CreditCard.charges ps (PredatoryCreditCard.super self)).
      discriminate Hall.
    + rewrite (predatory_charge_processed p self Hfits).
      set (c1 := CreditCard.set_balance _ (PredatoryCreditCard.super self))
        in *.
      unfold PredatoryCreditCard.get_balance, CreditCard.get_balance.
      fold c1.
      specialize (IH (PredatoryCreditCard.with_super c1 self)).
      cbn [PredatoryCreditCard.super PredatoryCreditCard.with_super] in IH.
      destruct (CreditCard.charges ps c1) as [rs c2]. cbn [fst snd] in *.
      injection Hall as Hall. rewrite (IH Hall). reflexivity.
Qed.

(** The charges of scenario 1 that are processed, on a predatory card. *)
Lemma predatory_agrees_while_processed_witness :
  let prices := [2400; 50; -30; 80] in
  let self := PredatoryCreditCard.__init__ "A" "B" "111" 2500 (12 # 100) in
  fst (CreditCard.charges prices (PredatoryCreditCard.super self))
    = repeat true (List.length prices) /\
  PredatoryCreditCard.charges prices self
    = (repeat true (List.length prices),
       PredatoryCreditCard.with_super
         (snd (CreditCard.charges prices (PredatoryCreditCard.super self)))
         self).
Proof.
  intros prices self.
  assert (Hall : fst (CreditCard.charges prices (PredatoryCreditCard.super self))
                 = repeat true (List.length prices)) by reflexivity.
  split; [exact Hall |].
  exact (predatory_agrees_while_processed prices self Hall).
Defined.

Lemma same_rest_trans (p1 p2 p3 : PredatoryCreditCard.t) :
  same_rest p1 p2 -> same_rest p2 p3 -> same_rest p1 p3.
Proof.
  intros [A1 A2] [B1 B2]. split.
  - apply (same_identity_trans _ _ _ A1 B1).
  - congruence.
Qed.

Lemma predatory_charge_same_rest (price : Z) (self : PredatoryCreditCard.t) :
  same_rest (snd (PredatoryCreditCard.charge price self)) self.
Proof.
  destruct (Z_gt_le_dec
              (PredatoryCreditCard.get_balance self + price)
              (PredatoryCreditCard.get_limit self)) as [H | H].
  - rewrite (predatory_charge_denied price self H). repeat split.
  - rewrite (predatory_charge_processed price self H). repeat split.
Qed.

Lemma denied_count_cons (r : bool) (rs : list bool) :
  denied_count (r :: rs) = (if r then 0 else 1) + denied_count rs.
Proof.
  unfold denied_count. destruct r; cbn [filter negb List.length]; lia.
Qed.

(** X7: after any sequence of charges on a predatory card, the balance has
    grown by the sum of the prices of the processed charges plus 5 for each
    denied charge, and limit, rate and identity are as before. *)
Theorem predatory_charges_ledger (prices : list Z) :
  forall self : PredatoryCreditCard.t,
    let results := fst (PredatoryCreditCard.charges prices self) in
    let self1 := snd (PredatoryCreditCard.charges prices self) in
    List.length results = List.length prices /\
    PredatoryCreditCard.get_balance self1
      = PredatoryCreditCard.get_balance self
        + accepted_total prices results + 5 * denied_count results /\
    same_rest self1 self.
Proof.
  induction prices as [| p ps IH]; intros self; cbv zeta.
  - cbn. repeat split. unfold denied_count. cbn. lia.
  - cbn [PredatoryCreditCard.charges].
    pose proof (predatory_charge_same_rest p self) as Hrest.
    assert (Hstep :
      PredatoryCreditCard.get_balance (snd (PredatoryCreditCard.charge p self))
        = PredatoryCreditCard.get_balance self
          + (if fst (PredatoryCreditCard.charge p self) then p else 0)
          + (if fst (PredatoryCreditCard.charge p self) then 0 else 5)).
    { destruct (Z_gt_le_dec
                  (PredatoryCreditCard.get_balance self + p)
                  (PredatoryCreditCard.get_limit self)) as [H | H].
      - rewrite (predatory_charge_denied p self H). getters.
      - rewrite (predatory_charge_processed p self H). getters. }
    destruct (PredatoryCreditCard.charge p self) as [r self1].
    cbn [fst snd] in *.
    specialize (IH self1). cbv zeta in IH.
    destruct (PredatoryCreditCard.charges ps self1) as [rs self2].
    cbn [fst snd] in *. destruct IH as (Hlen & Hbal & Hrest2).
    split; [cbn [List.length]; lia |].
    split.
    + rewrite Hbal, Hstep, denied_count_cons. cbn [accepted_total].
      destruct r; lia.
    + apply (same_rest_trans _ _ _ Hrest2 Hrest).
Qed.

Lemma predatory_excess_bound (prices : list Z) :
  forall (self : PredatoryCreditCard.t) (fees : Z),
    0 <= fees ->
    PredatoryCreditCard.get_balance self
      <= PredatoryCreditCard.get_limit self + fees ->
    PredatoryCreditCard.get_balance
      (snd (PredatoryCreditCard.charges prices self))
      <= PredatoryCreditCard.get_limit self + fees
         + 5 * denied_count (fst (PredatoryCreditCard.charges prices self)).
Proof.
  induction prices as [| p ps IH]; intros self fees Hfees Hin.
  - cbn. unfold denied_count. cbn. getters.
  - cbn [PredatoryCreditCard.charges].
    destruct (Z_gt_le_dec
                (PredatoryCreditCard.get_balance self + p)
                (PredatoryCreditCard.get_limit self)) as [H | H].
    + rewrite (predatory_charge_denied p self H).
      set (self1 := PredatoryCreditCard.with_super _ self).
      assert (Hin1 : PredatoryCreditCard.get_balance self1
                     <= PredatoryCreditCard.get_limit self1 + (fees + 5))
        by (subst self1; getters).
      pose proof (IH self1 (fees + 5) ltac:(lia) Hin1) as Hrec.
      destruct (PredatoryCreditCard.charges ps self1) as [rs self2].
      cbn [fst snd] in *. rewrite denied_count_cons.
      subst self1. getters.
    + rewrite (predatory_charge_processed p self H).
      set (self1 := PredatoryCreditCard.with_super _ self).
      assert (Hin1 : PredatoryCreditCard.get_balance self1
                     <= PredatoryCreditCard.get_limit self1 + fees)
        by (subst self1; getters).
      pose proof (IH self1 fees Hfees Hin1) as Hrec.
      destruct (PredatoryCreditCard.charges ps self1) as [rs self2].
      cbn [fst snd] in *. rewrite denied_count_cons.
      subst self1. getters.
Qed.

(** X16: a predatory card created with a limit that is not negative is
    above its limit by at most the fees it was charged: after any sequence
    of charges, the balance is at most the limit plus 5 for each denied
    charge. *)
Theorem predatory_excess_is_fees
  (customer bank acnt : string) (limit : Z) (apr : Q) (prices : list Z) :
  0 <= limit ->
  let self := PredatoryCreditCard.__init__ customer bank acnt limit apr in
  PredatoryCreditCard.get_balance
    (snd (PredatoryCreditCard.charges prices self))
    <= limit
       + 5 * denied_count (fst (PredatoryCreditCard.charges prices self)).
Proof.
  intros Hlimit self.
  pose proof (predatory_excess_bound prices self 0 ltac:(lia)) as Hbound.
  assert (Hin : PredatoryCreditCard.get_balance self
                <= PredatoryCreditCard.get_limit self + 0)
    by (subst self; getters).
  specialize (Hbound Hin).
  change (PredatoryCreditCard.get_limit self) with limit in Hbound. lia.
Qed.

(** The card of scenario 2 and five charges, three of them denied. *)
Lemma predatory_excess_is_fees_witness :
  0 <= 2500 /\
  let self := PredatoryCreditCard.__init__ "A" "B" "111" 2500 (12 # 100) in
  let prices := [2600; 2400; 200; 50; 300] in
  PredatoryCreditCard.get_balance
    (snd (PredatoryCreditCard.charges prices self))
    <= 2500
       + 5 * denied_count (fst (PredatoryCreditCard.charges prices self)).
Proof.
  assert (Hlimit : 0 <= 2500) by lia.
  split; [exact Hlimit |].
  exact (predatory_excess_is_fees "A" "B" "111" 2500 (12 # 100)
           [2600; 2400; 200; 50; 300] Hlimit).
Defined.

(** ** Sequences of payments and of mixed calls *)

Lemma total_permutation (l1 l2 : list Z) :
  Permutation l1 l2 -> total l1 = total l2.
Proof.
  induction 1 as [| x l1 l2 _ IH | x y l | l1 l2 l3 _ IH1 _ IH2].
  - reflexivity.
  - rewrite !total_cons. lia.
  - rewrite !total_cons. lia.
  - congruence.
Qed.

Lemma payments_total (amounts : list Z) :
  forall self : CreditCard.t,
    payments amounts self = CreditCard.make_payment (total amounts) self.
Proof.
  induction amounts as [| a rest IH]; intros self.
  - destruct self as [cu ba ac li b].
    unfold payments, CreditCard.make_payment, CreditCard.set_balance. cbn.
    f_equal. lia.
  - change (payments (a :: rest) self)
      with (payments rest (CreditCard.make_payment a self)).
    rewrite IH, total_cons.
    unfold CreditCard.make_payment, CreditCard.set_balance. cbn.
    f_equal. lia.
Qed.

(** X8: a sequence of payments leaves the card as one payment of their sum
    does, so the order of the payments does not matter. *)
Theorem payments_compose (amounts : list Z) (self : CreditCard.t) :
  payments amounts self = CreditCard.make_payment (total amounts) self /\
  _balance (payments amounts self) = _balance self - total amounts /\
  forall amounts1 : list Z,
    Permutation amounts amounts1 ->
    payments amounts1 self = payments amounts self.
Proof.
  split; [apply payments_total |].
  split; [rewrite payments_total; reflexivity |].
  intros amounts1 Hperm.
  rewrite !payments_total, (total_permutation _ _ Hperm). reflexivity.
Qed.

Lemma perform_same_rest (c : PredatoryCreditCard.call)
  (self : PredatoryCreditCard.t) :
  same_rest (PredatoryCreditCard.perform c self) self.
Proof.
  destruct c as [price | amount]; cbn [PredatoryCreditCard.perform].
  - apply predatory_charge_same_rest.
  - repeat split.
Qed.

(** X9: no sequence of calls of [charge] and [make_payment] changes the
    customer, the bank, the account, the limit or the rate of a card: the
    accessors other than [get_balance] return what the constructor was
    given. *)
Theorem calls_keep_identity (calls : list PredatoryCreditCard.call) :
  forall (customer bank acnt : string) (limit : Z) (apr : Q),
    let self :=
      performs calls
        (PredatoryCreditCard.__init__ customer bank acnt limit apr) in
    CreditCard.get_customer (PredatoryCreditCard.super self) = customer /\
    CreditCard.get_bank (PredatoryCreditCard.super self) = bank /\
    CreditCard.get_account (PredatoryCreditCard.super self) = acnt /\
    PredatoryCreditCard.get_limit self = limit /\
    PredatoryCreditCard._apr self = apr.
Proof.
  intros customer bank acnt limit apr. cbv zeta.
  assert (Hall : forall self : PredatoryCreditCard.t,
             same_rest (performs calls self) self).
  { induction calls as [| c cs IH]; intros self.
    - repeat split.
    - change (performs (c :: cs) self)
        with (performs cs (PredatoryCreditCard.perform c self)).
      apply (same_rest_trans _ _ _ (IH _) (perform_same_rest c self)). }
  destruct (Hall (PredatoryCreditCard.__init__ customer bank acnt limit apr))
    as [(H1 & H2 & H3 & H4) H5].
  repeat split; assumption.
Qed.

(** ** The paying-down loop of the driver *)

Lemma map_seq_shift {A : Type} (f : nat -> A) (start n : nat) :
  map f (seq (S start) n) = map (fun i => f (S i)) (seq start n).
Proof.
  rewrite <- seq_shift, map_map. reflexivity.
Qed.

(** X10: the loop that pays a card down by 100 while its balance is above
    100 ends with a balance of at most 100, has changed nothing but the
    balance, and has printed one line for each payment, with the balances
    [b - 100], [b - 200], ... in this order.  On a balance of at most 100
    it pays and prints nothing.  On a balance [b] above 100 it makes
    [(b - 1) / 100] payments and ends on [(b - 1) mod 100 + 1], a balance
    between 1 and 100: the card is never paid down to zero or below. *)
Theorem pay_down_result (self : CreditCard.t) :
  let lines := fst (Driver.pay_down self) in
  let self1 := snd (Driver.pay_down self) in
  _balance self1 <= 100 /\
  same_identity self1 self /\
  _balance self1 = _balance self - 100 * Z.of_nat (List.length lines) /\
  lines =
    map (fun i => Driver.new_balance_line (_balance self - 100 * Z.of_nat i))
      (seq 1 (List.length lines)) /\
  (_balance self <= 100 -> Driver.pay_down self = ([], self)) /\
  (100 < _balance self ->
     1 <= _balance self1 /\
     Z.of_nat (List.length lines) = (_balance self - 1) / 100 /\
     _balance self1 = (_balance self - 1) mod 100 + 1).
Proof.
  cbv zeta. functional induction (Driver.pay_down self) as
    [self Hgt ? IH lines self2 Hrec | self Hle].
  - set (self1 := CreditCard.make_payment 100 self) in *.
    rewrite Hrec in IH. cbn [fst snd] in *.
    destruct IH as (Hend & Hid & Hbal & Hlines & Hnone & Hsome).
    apply Z.gtb_lt in Hgt. unfold CreditCard.get_balance in *.
    assert (Hb1 : _balance self1 = _balance self - 100) by reflexivity.
    split; [| split; [| split; [| split; [| split]]]].
    + exact Hend.
    + apply (same_identity_trans _ _ _ Hid). repeat split.
    + cbn [List.length]. lia.
    + cbn [List.length seq map]. f_equal.
      rewrite map_seq_shift. etransitivity; [exact Hlines |].
      apply map_ext. intros i. f_equal. lia.
    + lia.
    + intros _. cbn [List.length].
      destruct (Z_le_gt_dec (_balance self1) 100) as [Hsmall | Hbig].
      * specialize (Hnone Hsmall). injection Hnone as Hl Hs. subst lines self2.
        cbn [List.length] in *.
        pose proof (Z.div_mod (_balance self - 1) 100 ltac:(lia)) as Hdm.
        pose proof (Z.mod_pos_bound (_balance self - 1) 100 ltac:(lia)) as Hm.
        assert (Hq : (_balance self - 1) / 100 = 1) by nia.
        rewrite Hq in *. lia.
      * destruct (Hsome ltac:(lia)) as (Hpos & Hcount & Hmod).
        rewrite Hb1 in Hcount, Hmod.
        replace (_balance self - 100 - 1)
          with (_balance self - 1 + (-1) * 100) in Hcount, Hmod by lia.
        rewrite Z.div_add in Hcount by lia.
        rewrite Z.mod_add in Hmod by lia.
        lia.
  - cbn [fst snd List.length seq map].
    destruct (Z.gtb_spec (CreditCard.get_balance self) 100) as [| Hsmall];
      [discriminate |].
    unfold CreditCard.get_balance in *.
    split; [| split; [| split; [| split; [| split]]]];
      try lia; try reflexivity.
    repeat split.
Qed.

(** ** Progressions: successive calls *)

Section Successive.

Context {St : Type} `{ProgressionClass St}.




End Successive.

(** ** The base progression *)

Lemma Progression_next (v : Z) :
  __next__ (Progression.__init__ (Some v)) =
    (inr v, Progression.__init__ (Some (v + 1))).
Proof. reflexivity. Qed.

(** X13: [Progression(start)] produces [start], [start + 1],
    [start + 2], ..., the whole numbers by default, and it produces what
    [ArithmeticProgression(1, start)] produces, value for value and
    exception for exception, also when [start] is [None]. *)
Theorem base_progression_terms :
  (forall (start : Z) (k : nat),
     term k (Progression.__init__ (Some start)) = inr (start + Z.of_nat k)) /\
  (forall k : nat,
     term k (Progression.__init__ Progression.default_start)
       = inr (Z.of_nat k)) /\
  (forall (start : option Z) (n : nat),
     fst (next_n n (Progression.__init__ start))
       = fst (next_n n
                (ArithmeticProgression.__init__
                   ArithmeticProgression.default_increment start))).
Proof.
  assert (Hterm : forall (k : nat) (start : Z),
             term k (Progression.__init__ (Some start))
               = inr (start + Z.of_nat k)).
  { induction k as [| k IH]; intros start.
    - rewrite term_O, Progression_next. cbn [fst]. f_equal. lia.
    - rewrite (term_S k _ _ _ (Progression_next start)), IH. f_equal. lia. }
  repeat apply conj.
  - intros start k. apply Hterm.
  - intros k. unfold Progression.default_start. rewrite Hterm. f_equal.
  - intros start n. unfold ArithmeticProgression.default_increment.
    revert start.
    induction n as [| n IH]; intros [v |]; try reflexivity.
    rewrite (next_n_S n _ _ _ (Progression_next v)).
    rewrite (next_n_S n _ _ _ (Arithmetic_next 1 v)).
    specialize (IH (Some (v + 1))).
    destruct (next_n n (Progression.__init__ (Some (v + 1))))
      as [[e | l] s1];
      destruct (next_n n (ArithmeticProgression.__init__ 1 (Some (v + 1))))
        as [[e' | l'] s2]; cbn [fst] in *; congruence.
Qed.

(** ** Reading a progression and creating one further on *)

Lemma after_O {St : Type} `{ProgressionClass St} (self : St) :
  after 0 self = self.
Proof. reflexivity. Qed.

Lemma Fibonacci_after (k : nat) :
  forall prev v : Z,
    let self :=
      {| FibonacciProgression.super := {| Progression._current := Some v |};
         FibonacciProgression._prev := prev |} in
    exists a b : Z,
      term k self = inr a /\
      term (S k) self = inr b /\
      after k self = FibonacciProgression.__init__ a b.
Proof.
  induction k as [| k IH]; intros prev v; cbv zeta.
  - exists v, (prev + v). repeat split.
    rewrite after_O. unfold FibonacciProgression.__init__, Progression.__init__.
    f_equal. lia.
  - destruct (IH v (prev + v)) as (a & b & Ha & Hb & Hafter).
    exists a, b.
    rewrite !(term_S _ _ _ _ (Fibonacci_next prev v)).
    rewrite (after_S _ _ _ _ (Fibonacci_next prev v)).
    repeat split; assumption.
Qed.

(** X14: an object that has produced [k] values is the object the
    constructor makes for the rest of the sequence: [Progression(start)]
    has become [Progression(start + k)], [ArithmeticProgression(i, start)]
    has become [ArithmeticProgression(i, start + k * i)],
    [GeometricProgression(b, start)] has become
    [GeometricProgression(b, start * b ** k)], and
    [FibonacciProgression(first, second)] has become
    [FibonacciProgression(a, b)] for its [k]-th and [k+1]-st values [a]
    and [b]. *)
Theorem after_is_restart (k : nat) :
  (forall start : Z,
     after k (Progression.__init__ (Some start))
       = Progression.__init__ (Some (start + Z.of_nat k))) /\
  (forall increment start : Z,
     after k (ArithmeticProgression.__init__ increment (Some start))
       = ArithmeticProgression.__init__ increment
           (Some (start + Z.of_nat k * increment))) /\
  (forall base start : Z,
     after k (GeometricProgression.__init__ base (Some start))
       = GeometricProgression.__init__ base
           (Some (start * base ^ Z.of_nat k))) /\
  (forall first second : Z,
     let self := FibonacciProgression.__init__ first second in
     exists a b : Z,
       term k self = inr a /\
       term (S k) self = inr b /\
       after k self = FibonacciProgression.__init__ a b).
Proof.
  repeat apply conj.
  - induction k as [| k IH]; intros start.
    + rewrite after_O. do 2 f_equal. lia.
    + rewrite (after_S k _ _ _ (Progression_next start)), IH.
      do 2 f_equal. lia.
  - intros increment. induction k as [| k IH]; intros start.
    + rewrite after_O. do 2 f_equal. lia.
    + rewrite (after_S k _ _ _ (Arithmetic_next increment start)), IH.
      do 2 f_equal. lia.
  - intros base. induction k as [| k IH]; intros start.
    + rewrite after_O. do 2 f_equal.
      change (Z.of_nat 0) with 0. rewrite Z.pow_0_r. lia.
    + rewrite (after_S k _ _ _ (Geometric_next base start)), IH.
      do 2 f_equal. rewrite Nat2Z.inj_succ, Z.pow_succ_r by lia. lia.
  - intros first second. apply Fibonacci_after.
Qed.

(** ** Fibonacci progressions and the Fibonacci numbers *)

Lemma fib_SS (k : nat) : fib (S (S k)) = fib k + fib (S k).
Proof.
  unfold fib. cbn [fib_pair].
  destruct (fib_pair k) as [a b]. reflexivity.
Qed.

Lemma Fibonacci_term_linear (k : nat) :
  forall prev v : Z,
    term k
      {| FibonacciProgression.super := {| Progression._current := Some v |};
         FibonacciProgression._prev := prev |}
      = inr (prev * fib k + v * fib (S k)).
Proof.
  induction k as [| k IH]; intros prev v.
  - rewrite term_O, Fibonacci_next. cbn [fst]. f_equal.
    change (fib 0) with 0. change (fib 1) with 1. lia.
  - rewrite (term_S k _ _ _ (Fibonacci_next prev v)), IH, fib_SS.
    f_equal. lia.
Qed.

(** X15: with the Fibonacci numbers [fib 0 = 0], [fib 1 = 1],
    [fib (k + 2) = fib k + fib (k + 1)], the value of index [k + 1] of
    [FibonacciProgression(first, second)] is
    [first * fib k + second * fib (k + 1)]; with the default arguments 0
    and 1 the progression produces the Fibonacci numbers themselves. *)
Theorem fibonacci_closed_form :
  (fib 0 = 0 /\ fib 1 = 1 /\ forall k : nat, fib (S (S k)) = fib k + fib (S k)) /\
  (forall (first second : Z) (k : nat),
     term (S k) (FibonacciProgression.__init__ first second)
       = inr (first * fib k + second * fib (S k))) /\
  (forall k : nat,
     term k (FibonacciProgression.__init__
               FibonacciProgression.default_first
               FibonacciProgression.default_second)
       = inr (fib k)).
Proof.
  repeat apply conj.
  - reflexivity.
  - reflexivity.
  - apply fib_SS.
  - intros first second k.
    unfold FibonacciProgression.__init__, Progression.__init__.
    rewrite Fibonacci_term_linear, fib_SS. f_equal. lia.
  - intros k.
    unfold FibonacciProgression.__init__, Progression.__init__,
      FibonacciProgression.default_first, FibonacciProgression.default_second.
    rewrite Fibonacci_term_linear. f_equal. lia.
Qed.
